(** * Winner determination and learning: the experiment evaluation engine

    A shallow embedding of [winner-learning.ts] (metrics deriver, significance
    tester, winner selector, learning generator) and the properties its
    specification states about it.

    Numbers.  A JavaScript [number] is an IEEE 754 binary64 value; it is
    modelled by Rocq's primitive [float], whose [+ - * /], [sqrt], [abs] and
    comparisons are the IEEE operations (round to nearest, ties to even), so a
    definition below computes the value the program computes, bit for bit.
    Decimal literals are read to the nearest binary64 value, as in JavaScript.

    [Math.exp] is implementation-approximated in ECMAScript; only its values
    at NaN, zero and the infinities are fixed.  It is modelled by [Math_exp],
    which takes the approximation on the other arguments as a parameter
    ([exp_approx]).  [Math.pow (x, 2)] is taken to be the correctly rounded
    square [x * x]. *)

From Stdlib Require Import Floats ZArith List Bool String Lia.
From Stdlib Require Uint63.
Import ListNotations.

Set Warnings "-inexact-float".

Open Scope float_scope.

(** ** JavaScript numbers and the [Math] functions the engine calls *)

Module JS.

(** [Math.ceil]: the least integral value not below [x]; NaN, the infinities
    and the zeros are returned as they are, and a negative [x] above [-1]
    gives [-0].  A finite non-zero binary64 value is [m * 2^e] with
    [m < 2^53], so the quotient below fits 53 bits and converts exactly. *)
Definition Math_ceil (x : float) : float :=
  match Prim2SF x with
  | S754_finite s m e =>
      if (0 <=? e)%Z then x
      else
        let d := (2 ^ (- e))%Z in
        let q := (Zpos m / d)%Z in
        let r := (Zpos m mod d)%Z in
        if s then - (of_uint63 (Uint63.of_Z q))
        else of_uint63 (Uint63.of_Z (if (r =? 0)%Z then q else (q + 1)%Z))
  | _ => x
  end.

(** [Math.exp]: NaN for NaN, 1 for both zeros, +Infinity for +Infinity, +0 for
    -Infinity, and the implementation's approximation elsewhere. *)
Definition Math_exp (exp_approx : float -> float) (x : float) : float :=
  if is_nan x then nan
  else if x =? 0 then 1
  else if x =? infinity then infinity
  else if x =? neg_infinity then 0
  else exp_approx x.

(** [Math.pow (x, 2)]. *)
Definition Math_pow2 (x : float) : float := x * x.

(** [x] is one of the three binary64 values around [ref]: the result of an
    implementation whose error is below one unit in the last place, when
    [ref] is the correctly rounded value. *)
Definition within_ulp (x ref : float) : Prop :=
  x = next_down ref \/ x = ref \/ x = next_up ref.

(** Truthiness of a number ([x && ...]): false for [0], [-0] and NaN. *)
Definition truthy (x : float) : bool := negb ((x =? 0) || is_nan x).


(** A template literal or string: its text pieces and interpolated numbers,
    in order.  [Num x] is [${x}], [Fixed x d] is [${x.toFixed(d)}] and
    [FixedOpt x d] is [${x?.toFixed(d)}] for a possibly missing [x]. *)
Inductive piece : Type :=
| Lit (s : string)
| Num (x : float)
| Fixed (x : float) (digits : nat)
| FixedOpt (x : option float) (digits : nat).

Definition text : Type := list piece.

End JS.

Import JS.

(** ** Data model *)

Inductive TestType : Type := ab_test | multivariate | bandit.

Inductive MetricType : Type := Cvr | Ctr | Cpa | Roas | Revenue | Cpc.

Record VariantMetrics : Type := mkVariantMetrics {
  cvr : float;
  ctr : float;
  cpa : float;
  roas : float;
  cpc : float;
  cpm : float
}.

Record VariantResult : Type := mkVariantResult {
  variantId : string;
  variantName : string;
  isControl : bool;
  sampleSize : float;
  conversions : float;
  clicks : float;
  impressions : float;
  spend : float;
  revenue : float;
  metrics : VariantMetrics
}.

Inductive Status : Type := winner | loser | tie | insufficient_data.

Record WinnerDecision : Type := mkWinnerDecision {
  status : Status;
  winnerVariantId : option string;
  improvement : option float;
  confidence : float;
  reason : text
}.

Record SignificanceResult : Type := mkSignificanceResult {
  isSignificant : bool;
  pValue : float;
  confidenceLevel : float;
  standardError : float;
  zScore : float;
  minimumDetectableEffect : float
}.

Inductive LearningType : Type :=
| headline_performance | cta_performance | image_performance
| color_performance | audience_insight | timing_insight
| placement_insight | general.

Inductive Impact : Type := high | medium | low.

(** A value of the free-form [metadata] bag. *)
Inductive value : Type :=
| VNumber (x : float)
| VString (s : string)
| VUndefined.

Record Learning : Type := mkLearning {
  id : string;
  type : LearningType;
  title : string;
  description : text;
  impact : Impact;
  actionable : bool;
  suggestedAction : option string;
  metadata : list (string * value)
}.

Record TestResult : Type := mkTestResult {
  tr_id : string;
  runId : string;
  testType : TestType;
  startDate : string;
  endDate : string;
  tr_primaryMetric : MetricType;
  tr_variants : list VariantResult;
  tr_winner : WinnerDecision;
  tr_confidence : float;
  tr_sampleSize : float;
  tr_learnings : list Learning;
  createdAt : string
}.

(** ** Effects

    The engine reads the clock and the random source to build identifiers
    and time stamps, and a property read on [undefined] raises a TypeError.
    A computation takes the number of readings made so far and either
    returns a value with the new count or raises. *)

Inductive Exception : Type := TypeError.

Inductive outcome (A : Type) : Type :=
| Returned (a : A) (readings : nat)
| Thrown (e : Exception).

Arguments Returned {A} a readings.
Arguments Thrown {A} e.

Definition M (A : Type) : Type := nat -> outcome A.

Definition ret {A : Type} (a : A) : M A := fun n => Returned a n.

Definition bind {A B : Type} (c : M A) (k : A -> M B) : M B :=
  fun n =>
    match c n with
    | Returned a n' => k a n'
    | Thrown e => Thrown e
    end.

Definition throw {A : Type} (e : Exception) : M A := fun _ => Thrown e.

Notation "x <- c ;; k" := (bind c (fun x => k))
  (at level 61, c at next level, right associativity).

(** Reading a property of a value that may be [undefined]. *)
Definition defined {A : Type} (x : option A) : M A :=
  match x with
  | Some a => ret a
  | None => throw TypeError
  end.

(** [Array.prototype.sort] with a comparator.  The sort is stable, and a NaN
    comparator result counts as [+0]; an element moves behind another one
    only when the comparator is positive on the pair. *)
Fixpoint insert_by {A : Type} (compareFn : A -> A -> float) (x : A) (l : list A)
    : list A :=
  match l with
  | [] => [x]
  | y :: l' => if 0 <? compareFn x y then y :: insert_by compareFn x l' else x :: l
  end.

Definition sort_by {A : Type} (compareFn : A -> A -> float) (l : list A) : list A :=
  fold_right (insert_by compareFn) [] l.

(** ** Metrics deriver *)

Definition calculateCVR (conversions clicks : float) : float :=
  if clicks =? 0 then 0 else (conversions / clicks) * 100.

Definition calculateCTR (clicks impressions : float) : float :=
  if impressions =? 0 then 0 else (clicks / impressions) * 100.

Definition calculateCPA (spend conversions : float) : float :=
  if conversions =? 0 then infinity else spend / conversions.

Definition calculateROAS (revenue spend : float) : float :=
  if spend =? 0 then 0 else revenue / spend.

Definition calculateCPC (spend clicks : float) : float :=
  if clicks =? 0 then 0 else spend / clicks.

Definition calculateCPM (spend impressions : float) : float :=
  if impressions =? 0 then 0 else (spend / impressions) * 1000.

Definition calculateVariantMetrics (result : VariantResult) : VariantMetrics :=
  {| cvr := calculateCVR (conversions result) (clicks result);
     ctr := calculateCTR (clicks result) (impressions result);
     cpa := calculateCPA (spend result) (conversions result);
     roas := calculateROAS (revenue result) (spend result);
     cpc := calculateCPC (spend result) (clicks result);
     cpm := calculateCPM (spend result) (impressions result) |}.

Definition getMetricValue (result : VariantResult) (metric : MetricType) : float :=
  let metrics := calculateVariantMetrics result in
  match metric with
  | Cvr => cvr metrics
  | Ctr => ctr metrics
  | Cpa => cpa metrics
  | Roas => roas metrics
  | Cpc => cpc metrics
  | Revenue => revenue result
  end.

(** ** Significance tester *)

Definition calculateStandardError (rate sampleSize : float) : float :=
  if sampleSize =? 0 then 0
  else
    let p := rate / 100 in
    sqrt ((p * (1 - p)) / sampleSize).

Definition calculateZScore (rateA rateB seA seB : float) : float :=
  let seDiff := sqrt (seA * seA + seB * seB) in
  if seDiff =? 0 then 0 else (rateA - rateB) / 100 / seDiff.

(** ** Sample-size planner *)

Definition calculateRequiredSampleSize
    (baselineRate minimumDetectableEffect power confidenceLevel : float) : float :=
  let zAlpha := if confidenceLevel =? 0.95 then 1.96 else 2.576 in
  let zBeta := if power =? 0.8 then 0.84 else 1.28 in
  let p1 := baselineRate / 100 in
  let p2 := (baselineRate + minimumDetectableEffect) / 100 in
  let pooledP := (p1 + p2) / 2 in
  let numerator := 2 * Math_pow2 (zAlpha + zBeta) * pooledP * (1 - pooledP) in
  let denominator := Math_pow2 (p2 - p1) in
  if denominator =? 0 then infinity
  else Math_ceil (numerator / denominator).

Section Engine.

(** The implementation's approximation of the exponential. *)
Variable exp_approx : float -> float.

Definition calculatePValue (zScore : float) : float :=
  let absZ := abs zScore in
  let t := 1 / (1 + 0.2316419 * absZ) in
  let d := 0.3989423 * Math_exp exp_approx (- absZ * absZ / 2) in
  let p := d * t * (0.3193815 + t * (-0.3565638 + t * (1.781478 + t * (-1.821256 + t * 1.330274)))) in
  2 * p.

Definition testSignificance (controlResult treatmentResult : VariantResult)
    (metric : MetricType) (confidenceLevel : float) : SignificanceResult :=
  let controlMetrics := calculateVariantMetrics controlResult in
  let treatmentMetrics := calculateVariantMetrics treatmentResult in
  let '(controlRate, treatmentRate, controlN, treatmentN) :=
    match metric with
    | Cvr =>
        (cvr controlMetrics, cvr treatmentMetrics,
         clicks controlResult, clicks treatmentResult)
    | Ctr =>
        (ctr controlMetrics, ctr treatmentMetrics,
         impressions controlResult, impressions treatmentResult)
    | _ =>
        (cvr controlMetrics, cvr treatmentMetrics,
         clicks controlResult, clicks treatmentResult)
    end in
  let seControl := calculateStandardError controlRate controlN in
  let seTreatment := calculateStandardError treatmentRate treatmentN in
  let zScore := calculateZScore treatmentRate controlRate seTreatment seControl in
  let pValue := calculatePValue zScore in
  let criticalZ := 1.96 in
  let isSignificant := pValue <? (1 - confidenceLevel) in
  let pooledSE := sqrt (seControl * seControl + seTreatment * seTreatment) in
  let mde := criticalZ * pooledSE * 100 in
  {| isSignificant := isSignificant;
     pValue := pValue;
     confidenceLevel := confidenceLevel;
     standardError := pooledSE;
     zScore := zScore;
     minimumDetectableEffect := mde |}.

(** ** Winner selector *)

Definition isLowerBetter (primaryMetric : MetricType) : bool :=
  match primaryMetric with
  | Cpa | Cpc => true
  | _ => false
  end.

(** The improvement of a treatment over the control, in percent. *)
Definition improvementOver (control treatment : VariantResult)
    (primaryMetric : MetricType) : float :=
  let controlMetric := getMetricValue control primaryMetric in
  let treatmentMetric := getMetricValue treatment primaryMetric in
  if isLowerBetter primaryMetric
  then ((controlMetric - treatmentMetric) / controlMetric) * 100
  else ((treatmentMetric - controlMetric) / controlMetric) * 100.

(** The variables of the first loop of [determineWinner]. *)
Record Best : Type := mkBest {
  bestTreatment : option VariantResult;
  bestImprovement : float;
  bestConfidence : float;
  significantWinner : bool
}.

Definition noBest : Best :=
  {| bestTreatment := None;
     bestImprovement := 0;
     bestConfidence := 0;
     significantWinner := false |}.

(** One iteration of the first loop. *)
Definition compareTreatment (control : VariantResult) (primaryMetric : MetricType)
    (confidenceLevel : float) (best : Best) (treatment : VariantResult) : Best :=
  let significance := testSignificance control treatment primaryMetric confidenceLevel in
  let improvement := improvementOver control treatment primaryMetric in
  if isSignificant significance && (0 <? improvement) then
    if bestImprovement best <? improvement then
      {| bestTreatment := Some treatment;
         bestImprovement := improvement;
         bestConfidence := 1 - pValue significance;
         significantWinner := true |}
    else best
  else best.

Definition controlBetter (control treatment : VariantResult)
    (primaryMetric : MetricType) : bool :=
  let controlMetric := getMetricValue control primaryMetric in
  let treatmentMetric := getMetricValue treatment primaryMetric in
  if isLowerBetter primaryMetric
  then controlMetric <? treatmentMetric
  else treatmentMetric <? controlMetric.

(** The second loop: it returns at the first treatment the control beats. *)
Fixpoint controlWins (control : VariantResult) (primaryMetric : MetricType)
    (confidenceLevel : float) (treatments : list VariantResult)
    : option WinnerDecision :=
  match treatments with
  | [] => None
  | treatment :: rest =>
      let significance :=
        testSignificance control treatment primaryMetric confidenceLevel in
      if isSignificant significance && controlBetter control treatment primaryMetric
      then Some {| status := loser;
                   winnerVariantId := Some (variantId control);
                   improvement := None;
                   confidence := 1 - pValue significance;
                   reason := [Lit "Control outperformed all treatments"] |}
      else controlWins control primaryMetric confidenceLevel rest
  end.

Definition totalSampleSizeOf (variants : list VariantResult) : float :=
  fold_left (fun sum v => sum + sampleSize v) variants 0.

Definition treatmentsOf (variants : list VariantResult) : list VariantResult :=
  filter (fun v => negb (isControl v)) variants.

(** The part of [determineWinner] after its guards: the two loops over the
    treatments and the decision they lead to. *)
Definition selectWinner (control : VariantResult) (treatments : list VariantResult)
    (primaryMetric : MetricType) (confidenceLevel : float) : WinnerDecision :=
  let best :=
    fold_left (compareTreatment control primaryMetric confidenceLevel)
              treatments noBest in
  match significantWinner best, bestTreatment best with
  | true, Some bestTreatment =>
      {| status := winner;
         winnerVariantId := Some (variantId bestTreatment);
         improvement := Some (bestImprovement best);
         confidence := bestConfidence best;
         reason := [Lit (variantName bestTreatment);
                    Lit " outperformed control by ";
                    Fixed (bestImprovement best) 1; Lit "%"] |}
  | _, _ =>
      match controlWins control primaryMetric confidenceLevel treatments with
      | Some decision => decision
      | None =>
          {| status := tie;
             winnerVariantId := None;
             improvement := None;
             confidence := 0.5;
             reason := [Lit "No statistically significant difference found"] |}
      end
  end.

Definition determineWinner (variants : list VariantResult)
    (primaryMetric : MetricType) (confidenceLevel minSampleSize : float)
    : WinnerDecision :=
  if (List.length variants <? 2)%nat then
    {| status := insufficient_data;
       winnerVariantId := None;
       improvement := None;
       confidence := 0;
       reason := [Lit "At least 2 variants required for comparison"] |}
  else
    match find isControl variants with
    | None =>
        {| status := insufficient_data;
           winnerVariantId := None;
           improvement := None;
           confidence := 0;
           reason := [Lit "No control variant specified"] |}
    | Some control =>
        let totalSampleSize := totalSampleSizeOf variants in
        if totalSampleSize <? minSampleSize then
          {| status := insufficient_data;
             winnerVariantId := None;
             improvement := None;
             confidence := 0;
             reason := [Lit "Insufficient sample size: "; Num totalSampleSize;
                        Lit "/"; Num minSampleSize] |}
        else
          selectWinner control (treatmentsOf variants) primaryMetric confidenceLevel
    end.

(** ** Learning generator *)

(** The text the [n]-th reading of the clock and the random source yields. *)
Variable oracle : nat -> string.

Definition read : M string := fun n => Returned (oracle n) (S n).

Definition generateTestResultId : M string :=
  s <- read ;; ret ("test_" ++ s)%string.

Definition generateLearningId : M string :=
  s <- read ;; ret ("learn_" ++ s)%string.

(** [new Date().toISOString()]. *)
Definition nowISOString : M string := read.

Definition optNumber (x : option float) : value :=
  match x with
  | Some n => VNumber n
  | None => VUndefined
  end.

(** The learning pushed for a declared winner. *)
Definition winnerLearning (variants : list VariantResult)
    (winnerDecision : WinnerDecision) (learnings : list Learning)
    : M (list Learning) :=
  match status winnerDecision, winnerVariantId winnerDecision with
  | winner, Some winnerId =>
      if (winnerId =? "")%string then ret learnings
      else
        match find (fun v => (variantId v =? winnerId)%string) variants with
        | Some winningVariant =>
            newId <- generateLearningId ;;
            ret (learnings ++
              [{| id := newId;
                  type := general;
                  title := (variantName winningVariant ++ "が勝者")%string;
                  description :=
                    [Lit (variantName winningVariant); Lit "が";
                     FixedOpt (improvement winnerDecision) 1;
                     Lit "%の改善を達成しました"];
                  impact :=
                    match improvement winnerDecision with
                    | Some i => if truthy i && (20 <? i) then high else medium
                    | None => medium
                    end;
                  actionable := true;
                  suggestedAction :=
                    Some "この勝者バリアントを本番で採用し、さらなる改善のためのテストを計画してください"%string;
                  metadata :=
                    [("improvementPercent"%string, optNumber (improvement winnerDecision));
                     ("confidence"%string, VNumber (confidence winnerDecision))] |}])
        | None => ret learnings
        end
  | _, _ => ret learnings
  end.

(** The learning on click-through rates. *)
Definition ctrLearning (variants : list VariantResult) (learnings : list Learning)
    : M (list Learning) :=
  let sortedByCTR :=
    sort_by (fun a b => ctr (calculateVariantMetrics b) - ctr (calculateVariantMetrics a))
            variants in
  let bestCTR := nth_error sortedByCTR 0 in
  let worstCTR := nth_error sortedByCTR (List.length sortedByCTR - 1) in
  best <- defined bestCTR ;;
  worst <- defined worstCTR ;;
  let ctrDiff := ctr (calculateVariantMetrics best) - ctr (calculateVariantMetrics worst) in
  if 0.5 <? ctrDiff then
    newId <- generateLearningId ;;
    ret (learnings ++
      [{| id := newId;
          type := general;
          title := "CTRに大きな差異"%string;
          description :=
            [Lit "最高CTR（"; Lit (variantName best); Lit "）と最低CTR（";
             Lit (variantName worst); Lit "）の間に"; Fixed ctrDiff 2;
             Lit "%の差があります"];
          impact := if 1 <? ctrDiff then high else medium;
          actionable := true;
          suggestedAction :=
            Some "高CTRバリアントのクリエイティブ要素を分析し、次のテストに活かしてください"%string;
          metadata :=
            [("bestVariant"%string, VString (variantName best));
             ("worstVariant"%string, VString (variantName worst));
             ("ctrDifference"%string, VNumber ctrDiff)] |}])
  else ret learnings.

(** The learning on acquisition cost. *)
Definition cpaLearning (variants : list VariantResult) (learnings : list Learning)
    : M (list Learning) :=
  let sortedByCPA :=
    sort_by (fun a b => cpa (calculateVariantMetrics a) - cpa (calculateVariantMetrics b))
            variants in
  let bestCPA := nth_error sortedByCPA 0 in
  let worstCPA :=
    last (map Some (filter (fun v => cpa (calculateVariantMetrics v) <? infinity)
                           sortedByCPA)) None in
  match worstCPA with
  | Some worst =>
      best <- defined bestCPA ;;
      let cpaDiff :=
        ((cpa (calculateVariantMetrics worst) - cpa (calculateVariantMetrics best))
           / cpa (calculateVariantMetrics best)) * 100 in
      if 30 <? cpaDiff then
        newId <- generateLearningId ;;
        ret (learnings ++
          [{| id := newId;
              type := general;
              title := "CPA効率に大きな差異"%string;
              description :=
                [Lit (variantName best); Lit "は"; Lit (variantName worst);
                 Lit "より"; Fixed cpaDiff 0;
                 Lit "%効率的にコンバージョンを獲得しています"];
              impact := high;
              actionable := true;
              suggestedAction :=
                Some "効率の良いバリアントの特徴を分析し、予算配分を最適化してください"%string;
              metadata :=
                [("bestVariant"%string, VString (variantName best));
                 ("worstVariant"%string, VString (variantName worst));
                 ("cpaDifferencePercent"%string, VNumber cpaDiff)] |}])
      else ret learnings
  | None => ret learnings
  end.

Definition generateLearnings (variants : list VariantResult)
    (winnerDecision : WinnerDecision) : M (list Learning) :=
  learnings <- winnerLearning variants winnerDecision [] ;;
  learnings <- ctrLearning variants learnings ;;
  cpaLearning variants learnings.

(** ** The evaluation entry point *)

Definition createTestResult (runId : string) (testType : TestType)
    (startDate endDate : string) (primaryMetric : MetricType)
    (variants : list VariantResult) : M TestResult :=
  let enrichedVariants :=
    map (fun v =>
           {| variantId := variantId v;
              variantName := variantName v;
              isControl := isControl v;
              sampleSize := sampleSize v;
              conversions := conversions v;
              clicks := clicks v;
              impressions := impressions v;
              spend := spend v;
              revenue := revenue v;
              metrics := calculateVariantMetrics v |}) variants in
  let winnerDecision := determineWinner enrichedVariants primaryMetric 0.95 100 in
  learnings <- generateLearnings enrichedVariants winnerDecision ;;
  let totalSampleSize := totalSampleSizeOf variants in
  newId <- generateTestResultId ;;
  now <- nowISOString ;;
  ret {| tr_id := newId;
         runId := runId;
         testType := testType;
         startDate := startDate;
         endDate := endDate;
         tr_primaryMetric := primaryMetric;
         tr_variants := enrichedVariants;
         tr_winner := winnerDecision;
         tr_confidence := confidence winnerDecision;
         tr_sampleSize := totalSampleSize;
         tr_learnings := learnings;
         createdAt := now |}.

End Engine.

(** ** Vocabulary of the properties

    Predicates and reference data the statements below are written with. *)

(** The variants of the engine's test suite: [sampleSize] is the number of
    clicks, and impressions, spend and revenue are derived from the counts. *)
Definition createVariant (id name : string) (isControl : bool)
    (conversions clicks : float) : VariantResult :=
  {| variantId := id;
     variantName := name;
     isControl := isControl;
     sampleSize := clicks;
     conversions := conversions;
     clicks := clicks;
     impressions := clicks * 100;
     spend := clicks * 5;
     revenue := conversions * 100;
     metrics := {| cvr := 0; ctr := 0; cpa := 0; roas := 0; cpc := 0; cpm := 0 |} |}.

(** The rate and the denominator [testSignificance] selects for a metric:
    click-through rate over impressions for [Ctr], conversion rate over
    clicks for [Cvr] and for every other metric. *)
Definition rateOf (metric : MetricType) (r : VariantResult) : float :=
  match metric with
  | Ctr => ctr (calculateVariantMetrics r)
  | _ => cvr (calculateVariantMetrics r)
  end.

Definition denominatorOf (metric : MetricType) (r : VariantResult) : float :=
  match metric with
  | Ctr => impressions r
  | _ => clicks r
  end.

Section Vocabulary.

Variable exp_approx : float -> float.
Variable control : VariantResult.
Variable primaryMetric : MetricType.
Variable confidenceLevel : float.

(** A treatment qualifies as a winner: its comparison with the control is
    significant and its improvement is positive. *)
Definition qualifies (t : VariantResult) : bool :=
  isSignificant (testSignificance exp_approx control t primaryMetric confidenceLevel)
  && (0 <? improvementOver control t primaryMetric).

(** The control beats a treatment: the comparison is significant and the
    control's metric is the better one in the metric's direction. *)
Definition beaten (t : VariantResult) : bool :=
  isSignificant (testSignificance exp_approx control t primaryMetric confidenceLevel)
  && controlBetter control t primaryMetric.

(** The loop variables once treatment [t] has been recorded as the best. *)
Definition bestAt (t : VariantResult) : Best :=
  {| bestTreatment := Some t;
     bestImprovement := improvementOver control t primaryMetric;
     bestConfidence :=
       1 - pValue (testSignificance exp_approx control t primaryMetric confidenceLevel);
     significantWinner := true |}.

(** The invariant of the first loop over the treatments [seen] so far. *)
Definition loopInv (b : Best) (seen : list VariantResult) : Prop :=
  (b = noBest /\ forall u, In u seen -> qualifies u = false)
  \/ (exists t, In t seen /\ qualifies t = true /\ b = bestAt t
        /\ forall u, In u seen -> qualifies u = true ->
             (improvementOver control t primaryMetric
                <? improvementOver control u primaryMetric) = false).

(** The decision that declares treatment [t] the winner. *)
Definition winnerAt (t : VariantResult) : WinnerDecision :=
  {| status := winner;
     winnerVariantId := Some (variantId t);
     improvement := Some (improvementOver control t primaryMetric);
     confidence :=
       1 - pValue (testSignificance exp_approx control t primaryMetric confidenceLevel);
     reason := [Lit (variantName t); Lit " outperformed control by ";
                Fixed (improvementOver control t primaryMetric) 1; Lit "%"] |}.

(** The decision the second loop returns at treatment [t]. *)
Definition loserAt (t : VariantResult) : WinnerDecision :=
  {| status := loser;
     winnerVariantId := Some (variantId control);
     improvement := None;
     confidence :=
       1 - pValue (testSignificance exp_approx control t primaryMetric confidenceLevel);
     reason := [Lit "Control outperformed all treatments"] |}.

End Vocabulary.

(** The decision when nothing significant is found. *)
Definition tieDecision : WinnerDecision :=
  {| status := tie;
     winnerVariantId := None;
     improvement := None;
     confidence := 0.5;
     reason := [Lit "No statistically significant difference found"] |}.

(** The decision of a failed guard. *)
Definition insufficient (why : text) : WinnerDecision :=
  {| status := insufficient_data;
     winnerVariantId := None;
     improvement := None;
     confidence := 0;
     reason := why |}.

(** A phrase occurs in a text, letter case apart. *)
Definition lowerAscii (c : Ascii.ascii) : Ascii.ascii :=
  let n := Ascii.nat_of_ascii c in
  if ((65 <=? n) && (n <=? 90))%nat then Ascii.ascii_of_nat (n + 32) else c.

Fixpoint lowercase (s : string) : string :=
  match s with
  | EmptyString => EmptyString
  | String c rest => String (lowerAscii c) (lowercase rest)
  end.

Definition occursIn (phrase s : string) : bool :=
  match String.index 0 (lowercase phrase) (lowercase s) with
  | Some _ => true
  | None => false
  end.

Definition mentions (phrase : string) (t : text) : bool :=
  existsb (fun p => match p with Lit s => occursIn phrase s | _ => false end) t.




(** Reference values of the exponential: the binary64 value nearest to
    [e^x] at the four arguments the scenarios below reach.  The table stands
    in for an implementation where a statement is instantiated. *)
Definition refExp (x : float) : float :=
  if x =? -19.011406844106478 then 5.5392493369888428e-09
  else if x =? -0.055067292231106034 then 0.94642145899907926
  else if x =? -1.9207999999999998 then 0.1464897234623658
  else if x =? -406.97674418604652 then 1.7874987099859244e-177
  else 0.

(** The comparison of two finite binary64 values of one sign: exponents
    first, then mantissas. *)
Definition lexCompare (e1 : Z) (m1 : positive) (e2 : Z) (m2 : positive) : comparison :=
  match Z.compare e1 e2 with
  | Lt => Lt
  | Gt => Gt
  | Eq => Pos.compare_cont Eq m1 m2
  end.

(** * Properties *)

(** ** Facts on binary64 comparison and arithmetic *)

Module FloatFacts.

Lemma lexCompare_Lt e1 m1 e2 m2 :
  lexCompare e1 m1 e2 m2 = Lt <-> (e1 < e2 \/ (e1 = e2 /\ Zpos m1 < Zpos m2))%Z.
Proof.
  unfold lexCompare.
  change (Pos.compare_cont Eq m1 m2) with (Pos.compare m1 m2).
  destruct (Z.compare_spec e1 e2); destruct (Pos.compare_spec m1 m2);
    split; intros; try discriminate; try reflexivity; lia.
Qed.

Lemma lexCompare_Gt e1 m1 e2 m2 :
  lexCompare e1 m1 e2 m2 = Gt <-> (e2 < e1 \/ (e1 = e2 /\ Zpos m2 < Zpos m1))%Z.
Proof.
  unfold lexCompare.
  change (Pos.compare_cont Eq m1 m2) with (Pos.compare m1 m2).
  destruct (Z.compare_spec e1 e2); destruct (Pos.compare_spec m1 m2);
    split; intros; try discriminate; try reflexivity; lia.
Qed.

Lemma lexCompare_Opp_Lt e1 m1 e2 m2 :
  match Z.compare e1 e2 with
  | Lt => Gt
  | Gt => Lt
  | Eq => CompOpp (Pos.compare_cont Eq m1 m2)
  end = Lt <-> lexCompare e1 m1 e2 m2 = Gt.
Proof.
  unfold lexCompare.
  destruct (Z.compare e1 e2); try (split; congruence).
  destruct (Pos.compare_cont Eq m1 m2); simpl; split; congruence.
Qed.

Lemma SFcompare_irrefl x : SFcompare x x <> Some Lt.
Proof.
  destruct x as [s|s| |s m e]; simpl; try discriminate.
  - destruct s; discriminate.
  - intros H. injection H as H.
    destruct s.
    + apply lexCompare_Opp_Lt, lexCompare_Gt in H. lia.
    + apply (lexCompare_Lt e m e m) in H. lia.
Qed.

Lemma SFcompare_trans x y z :
  SFcompare x y = Some Lt -> SFcompare y z = Some Lt -> SFcompare x z = Some Lt.
Proof.
  destruct x as [sx|sx| |sx mx ex], y as [sy|sy| |sy my ey], z as [sz|sz| |sz mz ez];
    simpl; try discriminate;
    try (destruct sx); try (destruct sy); try (destruct sz);
    simpl; try discriminate; try reflexivity;
    intros H1 H2; injection H1 as H1; injection H2 as H2; f_equal.
  - apply lexCompare_Opp_Lt, lexCompare_Gt in H1.
    apply lexCompare_Opp_Lt, lexCompare_Gt in H2.
    apply lexCompare_Opp_Lt, lexCompare_Gt. lia.
  - apply (lexCompare_Lt ex mx ey my) in H1.
    apply (lexCompare_Lt ey my ez mz) in H2.
    apply (lexCompare_Lt ex mx ez mz). lia.
Qed.

Lemma ltb_true x y : (x <? y) = true <-> SFcompare (Prim2SF x) (Prim2SF y) = Some Lt.
Proof.
  rewrite ltb_spec. unfold SFltb.
  destruct (SFcompare (Prim2SF x) (Prim2SF y)) as [[ | | ]|];
    split; congruence.
Qed.

Lemma ltb_irrefl x : (x <? x) = false.
Proof.
  destruct (x <? x) eqn:H; [|reflexivity].
  apply ltb_true in H. now apply SFcompare_irrefl in H.
Qed.

Lemma ltb_trans x y z : (x <? y) = true -> (y <? z) = true -> (x <? z) = true.
Proof.
  rewrite !ltb_true. apply SFcompare_trans.
Qed.



Lemma SFcompare_antisym x y :
  SFcompare x y = Some Lt -> SFcompare y x = Some Gt.
Proof.
  destruct x as [sx|sx| |sx mx ex], y as [sy|sy| |sy my ey];
    simpl; try discriminate;
    try (destruct sx); try (destruct sy);
    simpl; try discriminate; try reflexivity;
    intros H; injection H as H; f_equal.
  - apply lexCompare_Opp_Lt, lexCompare_Gt in H.
    assert (G : lexCompare ey my ex mx = Lt)
      by (apply lexCompare_Lt; lia).
    unfold lexCompare in G.
    destruct (Z.compare ey ex); try discriminate; try reflexivity.
    now rewrite G.
  - apply (lexCompare_Lt ex mx ey my) in H.
    apply (lexCompare_Gt ey my ex mx). lia.
Qed.

Lemma leb_ltb_false x y : (y <=? x) = true -> (x <? y) = false.
Proof.
  intros Hle. destruct (x <? y) eqn:Hlt; [|reflexivity].
  apply ltb_true, SFcompare_antisym in Hlt.
  rewrite leb_spec in Hle. unfold SFleb in Hle. rewrite Hlt in Hle. discriminate.
Qed.

Lemma Prim2SF_zero : Prim2SF 0 = S754_zero false.
Proof. reflexivity. Qed.

Lemma positive_cases tm :
  (0 <? tm) = true ->
  Prim2SF tm = S754_infinity false \/ exists m e, Prim2SF tm = S754_finite false m e.
Proof.
  rewrite ltb_spec, Prim2SF_zero. unfold SFltb.
  destruct (Prim2SF tm) as [s|s| |s m e]; simpl; try discriminate;
    destruct s; try discriminate; intros _; [now left | right; eauto].
Qed.

Lemma over_zero_pos tm : (0 <? tm) = true -> (tm - 0) / 0 * 100 = infinity.
Proof.
  intros H. apply Prim2SF_inj.
  rewrite mul_spec, div_spec, sub_spec, Prim2SF_zero.
  destruct (positive_cases tm H) as [-> | (m & e & ->)]; reflexivity.
Qed.

Lemma under_zero_pos tm : (0 <? tm) = true -> (0 - tm) / 0 * 100 = neg_infinity.
Proof.
  intros H. apply Prim2SF_inj.
  rewrite mul_spec, div_spec, sub_spec, Prim2SF_zero.
  destruct (positive_cases tm H) as [-> | (m & e & ->)]; reflexivity.
Qed.

Lemma over_zero_sign tm :
  (0 <? (tm - 0) / 0 * 100) = true -> (tm - 0) / 0 * 100 = infinity.
Proof.
  intros H. apply Prim2SF_inj. revert H.
  rewrite ltb_spec, mul_spec, div_spec, sub_spec, Prim2SF_zero.
  destruct (Prim2SF tm) as [s|s| |s m e]; try destruct s; vm_compute;
    congruence.
Qed.

Lemma abs_square z : abs z * abs z = z * z.
Proof.
  apply Prim2SF_inj. rewrite !mul_spec, abs_spec.
  destruct (Prim2SF z) as [s|s| |s m e]; try destruct s; reflexivity.
Qed.

Lemma abs_opp z : abs (- z) = abs z.
Proof.
  apply Prim2SF_inj. rewrite !abs_spec, opp_spec.
  destruct (Prim2SF z) as [s|s| |s m e]; reflexivity.
Qed.

Lemma lexCompare_flip e1 m1 e2 m2 :
  lexCompare e2 m2 e1 m1 = CompOpp (lexCompare e1 m1 e2 m2).
Proof.
  unfold lexCompare. rewrite (Z.compare_antisym e1 e2).
  destruct (Z.compare e1 e2); simpl; try reflexivity.
  change (Pos.compare_cont Eq m2 m1) with (Pos.compare m2 m1).
  change (Pos.compare_cont Eq m1 m2) with (Pos.compare m1 m2).
  apply Pos.compare_antisym.
Qed.

Lemma lexCompare_Opp_flip e1 m1 e2 m2 :
  match Z.compare e2 e1 with
  | Lt => Gt
  | Gt => Lt
  | Eq => CompOpp (Pos.compare_cont Eq m2 m1)
  end
  = CompOpp match Z.compare e1 e2 with
            | Lt => Gt
            | Gt => Lt
            | Eq => CompOpp (Pos.compare_cont Eq m1 m2)
            end.
Proof.
  rewrite (Z.compare_antisym e1 e2).
  destruct (Z.compare e1 e2); simpl; try reflexivity.
  change (Pos.compare_cont Eq m2 m1) with (Pos.compare m2 m1).
  change (Pos.compare_cont Eq m1 m2) with (Pos.compare m1 m2).
  now rewrite (Pos.compare_antisym m1 m2).
Qed.

Lemma SFcompare_flip x y :
  SFcompare y x = option_map CompOpp (SFcompare x y).
Proof.
  destruct x as [sx|sx| |sx mx ex], y as [sy|sy| |sy my ey];
    simpl; try reflexivity;
    try (destruct sx); try (destruct sy); simpl; try reflexivity; f_equal.
  - apply lexCompare_Opp_flip.
  - exact (lexCompare_flip ex mx ey my).
Qed.

Lemma ltb_false_leb x y :
  (0 <? x) = true -> (0 <? y) = true -> (x <? y) = false -> (y <=? x) = true.
Proof.
  rewrite !ltb_spec, leb_spec. unfold SFltb, SFleb.
  rewrite (SFcompare_flip (Prim2SF x) (Prim2SF y)).
  replace (Prim2SF 0) with (S754_zero false) by reflexivity.
  destruct (SFcompare (Prim2SF x) (Prim2SF y)) as [[| |]|] eqn:Hc; simpl;
    try congruence.
  destruct (Prim2SF x) as [sx|sx| |sx mx ex]; simpl; try discriminate;
    destruct (Prim2SF y) as [sy|sy| |sy my ey]; simpl; try discriminate;
    simpl in Hc; discriminate.
Qed.




End FloatFacts.

(** ** The winner selector *)

Section Selector.

Variable exp_approx : float -> float.
Variable control : VariantResult.
Variable primaryMetric : MetricType.
Variable confidenceLevel : float.

Local Abbreviation qualifies := (qualifies exp_approx control primaryMetric confidenceLevel).
Local Abbreviation beaten := (beaten exp_approx control primaryMetric confidenceLevel).
Local Abbreviation bestAt := (bestAt exp_approx control primaryMetric confidenceLevel).
Local Abbreviation loopInv := (loopInv exp_approx control primaryMetric confidenceLevel).
Local Abbreviation winnerAt := (winnerAt exp_approx control primaryMetric confidenceLevel).
Local Abbreviation loserAt := (loserAt exp_approx control primaryMetric confidenceLevel).

Lemma compareTreatment_not_qualified b t :
  qualifies t = false ->
  compareTreatment exp_approx control primaryMetric confidenceLevel b t = b.
Proof.
  unfold qualifies, compareTreatment. cbv zeta. intros ->. reflexivity.
Qed.

Lemma compareTreatment_qualified b t :
  qualifies t = true ->
  compareTreatment exp_approx control primaryMetric confidenceLevel b t =
  if bestImprovement b <? improvementOver control t primaryMetric
  then bestAt t else b.
Proof.
  unfold qualifies, compareTreatment. cbv zeta. intros ->. reflexivity.
Qed.

Lemma loopInv_step b seen t :
  loopInv b seen ->
  loopInv (compareTreatment exp_approx control primaryMetric confidenceLevel b t)
          (seen ++ [t]).
Proof.
  intros Hinv.
  destruct (qualifies t) eqn:Hq.
  - rewrite (compareTreatment_qualified _ _ Hq).
    destruct Hinv as [[-> Hnone] | (t0 & Hin0 & Hq0 & -> & Hmax)].
    + (* first qualifying treatment: its improvement exceeds the initial 0 *)
      assert (Hpos : (0 <? improvementOver control t primaryMetric) = true).
      { unfold qualifies in Hq. apply andb_true_iff in Hq. tauto. }
      simpl bestImprovement. rewrite Hpos.
      right. exists t. repeat split.
      * apply in_or_app. right. now left.
      * exact Hq.
      * intros u Hu Hqu. apply in_app_or in Hu.
        destruct Hu as [Hu | [<- | []]].
        -- rewrite (Hnone u Hu) in Hqu. discriminate.
        -- apply FloatFacts.ltb_irrefl.
    + simpl bestImprovement.
      destruct (improvementOver control t0 primaryMetric
                  <? improvementOver control t primaryMetric) eqn:Hlt.
      * right. exists t. repeat split.
        -- apply in_or_app. right. now left.
        -- exact Hq.
        -- intros u Hu Hqu. apply in_app_or in Hu.
           destruct Hu as [Hu | [<- | []]].
           ++ destruct (improvementOver control t primaryMetric
                          <? improvementOver control u primaryMetric) eqn:Htu;
                [|reflexivity].
              specialize (Hmax u Hu Hqu).
              rewrite (FloatFacts.ltb_trans _ _ _ Hlt Htu) in Hmax. discriminate.
           ++ apply FloatFacts.ltb_irrefl.
      * right. exists t0. repeat split.
        -- apply in_or_app. now left.
        -- exact Hq0.
        -- intros u Hu Hqu. apply in_app_or in Hu.
           destruct Hu as [Hu | [<- | []]].
           ++ now apply Hmax.
           ++ exact Hlt.
  - rewrite (compareTreatment_not_qualified _ _ Hq).
    destruct Hinv as [[-> Hnone] | (t0 & Hin0 & Hq0 & -> & Hmax)].
    + left. split; [reflexivity|].
      intros u Hu. apply in_app_or in Hu.
      destruct Hu as [Hu | [<- | []]]; [now apply Hnone | exact Hq].
    + right. exists t0. repeat split.
      * apply in_or_app. now left.
      * exact Hq0.
      * intros u Hu Hqu. apply in_app_or in Hu.
        destruct Hu as [Hu | [<- | []]]; [now apply Hmax|].
        rewrite Hq in Hqu. discriminate.
Qed.

Lemma loopInv_fold treatments :
  forall b seen,
    loopInv b seen ->
    loopInv (fold_left (compareTreatment exp_approx control primaryMetric confidenceLevel)
                       treatments b)
            (seen ++ treatments).
Proof.
  induction treatments as [|t rest IH]; intros b seen Hinv; simpl.
  - now rewrite app_nil_r.
  - replace (seen ++ t :: rest) with ((seen ++ [t]) ++ rest)
      by (rewrite <- app_assoc; reflexivity).
    apply IH. now apply loopInv_step.
Qed.

Lemma loopInv_treatments treatments :
  loopInv (fold_left (compareTreatment exp_approx control primaryMetric confidenceLevel)
                     treatments noBest)
          treatments.
Proof.
  apply (loopInv_fold treatments noBest []).
  left. split; [reflexivity|]. intros u [].
Qed.

Lemma controlWins_none treatments :
  (forall t, In t treatments -> beaten t = false) ->
  controlWins exp_approx control primaryMetric confidenceLevel treatments = None.
Proof.
  induction treatments as [|t rest IH]; intros Hall; simpl; [reflexivity|].
  assert (Ht : beaten t = false) by (apply Hall; now left).
  unfold beaten in Ht. rewrite Ht.
  apply IH. intros u Hu. apply Hall. now right.
Qed.

Lemma controlWins_some treatments :
  (exists t, In t treatments /\ beaten t = true) ->
  exists before t after,
    treatments = before ++ t :: after
    /\ (forall u, In u before -> beaten u = false)
    /\ beaten t = true
    /\ controlWins exp_approx control primaryMetric confidenceLevel treatments
       = Some (loserAt t).
Proof.
  induction treatments as [|t rest IH]; intros (t0 & Hin & Hb).
  - destruct Hin.
  - destruct (beaten t) eqn:Ht.
    + exists [], t, rest. repeat split.
      * intros u [].
      * exact Ht.
      * simpl. unfold beaten in Ht. rewrite Ht. reflexivity.
    + destruct Hin as [-> | Hin]; [congruence|].
      destruct IH as (before & t1 & after & -> & Hbefore & Ht1 & Heq).
      { exists t0. now split. }
      exists (t :: before), t1, after. repeat split.
      * intros u [<- | Hu]; [exact Ht | now apply Hbefore].
      * exact Ht1.
      * simpl. unfold beaten in Ht. rewrite Ht. exact Heq.
Qed.

(** The decision when some treatment qualifies. *)
Lemma selectWinner_winner treatments :
  (exists t, In t treatments /\ qualifies t = true) ->
  exists t,
    In t treatments /\ qualifies t = true
    /\ (forall u, In u treatments -> qualifies u = true ->
          (improvementOver control t primaryMetric
             <? improvementOver control u primaryMetric) = false)
    /\ selectWinner exp_approx control treatments primaryMetric confidenceLevel
       = winnerAt t.
Proof.
  intros (t0 & Hin0 & Hq0).
  destruct (loopInv_treatments treatments) as [[_ Hnone] | (t & Hin & Hq & Hbest & Hmax)].
  - rewrite (Hnone t0 Hin0) in Hq0. discriminate.
  - exists t. repeat split; try assumption.
    unfold selectWinner. cbv zeta. rewrite Hbest. reflexivity.
Qed.

(** The decision when no treatment qualifies. *)
Lemma selectWinner_no_winner treatments :
  (forall t, In t treatments -> qualifies t = false) ->
  selectWinner exp_approx control treatments primaryMetric confidenceLevel
  = match controlWins exp_approx control primaryMetric confidenceLevel treatments with
    | Some decision => decision
    | None => tieDecision
    end.
Proof.
  intros Hnone.
  destruct (loopInv_treatments treatments) as [[Hbest _] | (t & Hin & Hq & _)].
  - unfold selectWinner. cbv zeta. rewrite Hbest. reflexivity.
  - rewrite (Hnone t Hin) in Hq. discriminate.
Qed.

Lemma controlWins_status treatments d :
  controlWins exp_approx control primaryMetric confidenceLevel treatments = Some d ->
  status d = loser.
Proof.
  induction treatments as [|t rest IH]; simpl; [discriminate|].
  destruct (_ && _); [|exact IH].
  intros H. injection H as <-. reflexivity.
Qed.

Lemma selectWinner_winner_inv treatments :
  status (selectWinner exp_approx control treatments primaryMetric confidenceLevel)
    = winner ->
  exists t, In t treatments /\ qualifies t = true.
Proof.
  intros Hst.
  destruct (loopInv_treatments treatments) as [[Hbest Hnone] | (t & Hin & Hq & _)].
  - rewrite (selectWinner_no_winner _ Hnone) in Hst.
    destruct (controlWins _ _ _ _ _) as [d|] eqn:Hcw.
    + rewrite (controlWins_status _ _ Hcw) in Hst. discriminate.
    + discriminate.
  - now exists t.
Qed.

Lemma controlWins_some_inv treatments d :
  controlWins exp_approx control primaryMetric confidenceLevel treatments = Some d ->
  exists t, In t treatments /\ beaten t = true.
Proof.
  induction treatments as [|t rest IH]; simpl; [discriminate|].
  destruct (beaten t) eqn:Hb.
  - intros _. exists t. split; [now left | exact Hb].
  - unfold beaten in Hb. rewrite Hb. intros H.
    destruct (IH H) as (u & Hu & Hbu). exists u. split; [now right | exact Hbu].
Qed.

End Selector.

(** [determineWinner] once its three guards are passed. *)
Lemma determineWinner_passed exp_approx variants primaryMetric confidenceLevel
    minSampleSize control :
  (2 <= List.length variants)%nat ->
  find isControl variants = Some control ->
  (totalSampleSizeOf variants <? minSampleSize) = false ->
  determineWinner exp_approx variants primaryMetric confidenceLevel minSampleSize
  = selectWinner exp_approx control (treatmentsOf variants) primaryMetric confidenceLevel.
Proof.
  intros Hlen Hfind Htotal. unfold determineWinner.
  destruct (Nat.ltb_spec (List.length variants) 2) as [Hlt|_]; [lia|].
  rewrite Hfind. cbv zeta. rewrite Htotal. reflexivity.
Qed.

Lemma treatmentsOf_In variants t :
  In t (treatmentsOf variants) <-> In t variants /\ isControl t = false.
Proof.
  unfold treatmentsOf. rewrite filter_In.
  destruct (isControl t); simpl; intuition congruence.
Qed.

(** ** The guards and the decision procedure of [determineWinner] *)

Lemma find_first_control before c after :
  (forall v, In v before -> isControl v = false) ->
  isControl c = true ->
  find isControl (before ++ c :: after) = Some c.
Proof.
  induction before as [|v rest IH]; intros Hbefore Hc; simpl.
  - now rewrite Hc.
  - rewrite (Hbefore v (or_introl eq_refl)). apply IH; [|exact Hc].
    intros u Hu. apply Hbefore. now right.
Qed.

Lemma find_no_control variants :
  (forall v, In v variants -> isControl v = false) ->
  find isControl variants = None.
Proof.
  induction variants as [|v rest IH]; intros Hall; simpl; [reflexivity|].
  rewrite (Hall v (or_introl eq_refl)). apply IH.
  intros u Hu. apply Hall. now right.
Qed.

Lemma find_some_control variants :
  (exists v, In v variants /\ isControl v = true) ->
  exists control, find isControl variants = Some control.
Proof.
  intros (v & Hin & Hv).
  destruct (find isControl variants) as [c|] eqn:Hfind; [now exists c|].
  rewrite (find_none _ _ Hfind v Hin) in Hv. discriminate.
Qed.

(** C2.  The three guards of [determineWinner] form a priority chain: a list
    of fewer than two variants, then a list without a control, then a total
    sample size below the minimum each end the evaluation with status
    [insufficient_data] and their own reason (the third one carries the
    actual and the required count), whatever the counters of the variants
    are; and the decision then does not depend on the exponential, that is,
    on any p-value. *)
Theorem determineWinner_guard_chain
    (exp_approx : float -> float) (variants : list VariantResult)
    (primaryMetric : MetricType) (confidenceLevel minSampleSize : float) :
  let decision :=
    determineWinner exp_approx variants primaryMetric confidenceLevel minSampleSize in
  ((List.length variants < 2)%nat ->
     decision = insufficient [Lit "At least 2 variants required for comparison"]
     /\ mentions "at least 2 variants required" (reason decision) = true)
  /\ ((2 <= List.length variants)%nat ->
      (forall v, In v variants -> isControl v = false) ->
      decision = insufficient [Lit "No control variant specified"]
      /\ mentions "no control variant specified" (reason decision) = true)
  /\ ((2 <= List.length variants)%nat ->
      (exists v, In v variants /\ isControl v = true) ->
      (totalSampleSizeOf variants <? minSampleSize) = true ->
      decision = insufficient [Lit "Insufficient sample size: ";
                               Num (totalSampleSizeOf variants);
                               Lit "/"; Num minSampleSize])
  /\ (status decision = insufficient_data ->
      forall exp_approx',
        determineWinner exp_approx' variants primaryMetric confidenceLevel minSampleSize
        = decision).
Proof.
  cbv zeta.
  assert (Hsel : forall control treatments,
             status (selectWinner exp_approx control treatments
                                  primaryMetric confidenceLevel)
             <> insufficient_data).
  { intros control treatments. unfold selectWinner. cbv zeta.
    match goal with
    | |- context [significantWinner ?b] =>
        destruct (significantWinner b), (bestTreatment b)
    end; simpl; try discriminate;
      destruct (controlWins _ _ _ _ _) as [d|] eqn:Hcw;
      try rewrite (controlWins_status _ _ _ _ _ _ Hcw); discriminate. }
  unfold determineWinner, insufficient.
  destruct (Nat.ltb_spec (List.length variants) 2) as [Hlt|Hge].
  - split; [|split; [|split]]; intros; try lia; try reflexivity.
    split; reflexivity.
  - destruct (find isControl variants) as [control|] eqn:Hfind.
    + cbv zeta.
      destruct (totalSampleSizeOf variants <? minSampleSize) eqn:Htotal.
      * split; [|split; [|split]]; intros; try lia; try reflexivity.
        rewrite (find_no_control variants) in Hfind by assumption. discriminate.
      * split; [|split; [|split]]; intros; try lia; try discriminate.
        -- rewrite (find_no_control variants) in Hfind by assumption. discriminate.
        -- exfalso. now apply (Hsel control (treatmentsOf variants)).
    + split; [|split; [|split]]; intros; try lia; try reflexivity.
      * split; reflexivity.
      * destruct (find_some_control variants) as (c & Hc); [assumption|]. congruence.
Qed.

(** The three guards at work: the empty list, two variants without a
    control, and the specification's scenario of 5 of 50 against 7 of 50
    with a minimum of 200 samples. *)
Lemma determineWinner_guard_chain_witness :
  determineWinner refExp [] Cvr 0.95 100
  = insufficient [Lit "At least 2 variants required for comparison"]
  /\ determineWinner refExp
       [createVariant "var1" "Variant 1" false 500 5000;
        createVariant "var2" "Variant 2" false 700 5000] Cvr 0.95 100
     = insufficient [Lit "No control variant specified"]
  /\ determineWinner refExp
       [createVariant "control" "Control" true 5 50;
        createVariant "treatment" "Treatment" false 7 50] Cvr 0.95 200
     = insufficient [Lit "Insufficient sample size: "; Num 100; Lit "/"; Num 200]
  /\ determineWinner (fun _ => 0)
       [createVariant "control" "Control" true 5 50;
        createVariant "treatment" "Treatment" false 7 50] Cvr 0.95 200
     = determineWinner refExp
         [createVariant "control" "Control" true 5 50;
          createVariant "treatment" "Treatment" false 7 50] Cvr 0.95 200.
Proof.
  split; [|split; [|split]].
  - refine (proj1 (proj1 (determineWinner_guard_chain refExp [] Cvr 0.95 100) _)).
    simpl. lia.
  - refine (proj1 (proj1 (proj2
      (determineWinner_guard_chain refExp
         [createVariant "var1" "Variant 1" false 500 5000;
          createVariant "var2" "Variant 2" false 700 5000] Cvr 0.95 100)) _ _)).
    + simpl. lia.
    + intros v [<- | [<- | []]]; reflexivity.
  - refine (proj1 (proj2 (proj2
      (determineWinner_guard_chain refExp
         [createVariant "control" "Control" true 5 50;
          createVariant "treatment" "Treatment" false 7 50] Cvr 0.95 200))) _ _ _).
    + simpl. lia.
    + exists (createVariant "control" "Control" true 5 50).
      split; [now left | reflexivity].
    + reflexivity.
  - refine (proj2 (proj2 (proj2
      (determineWinner_guard_chain refExp
         [createVariant "control" "Control" true 5 50;
          createVariant "treatment" "Treatment" false 7 50] Cvr 0.95 200))) _ _).
    reflexivity.
Defined.

(** C1.  Past the three guards, [determineWinner] declares a winner exactly
    when some treatment (a variant not flagged as control) is significant
    against the control and has a positive improvement, where the improvement
    is [(control - treatment) / control * 100] for the lower-is-better
    metrics [cpa] and [cpc] and [(treatment - control) / control * 100] for
    the others.  The winner is then a qualifying treatment whose improvement
    is the largest among the qualifying ones, reported with that improvement
    and with the confidence [1 - pValue] of its comparison.  In the scenario of 500
    against 700 conversions on 5000 clicks each, on [cvr] at 0.95 with a
    minimum of 100 samples, the treatment wins with a positive improvement,
    for every exponential accurate to one unit in the last place at the
    argument reached. *)
Theorem determineWinner_winner (exp_approx : float -> float) :
  (forall control treatment primaryMetric,
     improvementOver control treatment primaryMetric
     = match primaryMetric with
       | Cpa | Cpc =>
           ((getMetricValue control primaryMetric
               - getMetricValue treatment primaryMetric)
              / getMetricValue control primaryMetric) * 100
       | _ =>
           ((getMetricValue treatment primaryMetric
               - getMetricValue control primaryMetric)
              / getMetricValue control primaryMetric) * 100
       end)
  /\ (forall variants primaryMetric confidenceLevel minSampleSize control,
        (2 <= List.length variants)%nat ->
        find isControl variants = Some control ->
        (totalSampleSizeOf variants <? minSampleSize) = false ->
        let decision :=
          determineWinner exp_approx variants primaryMetric confidenceLevel
                          minSampleSize in
        let qualifying t :=
          In t variants /\ isControl t = false
          /\ qualifies exp_approx control primaryMetric confidenceLevel t = true in
        (status decision = winner <-> exists t, qualifying t)
        /\ (status decision = winner ->
            exists t,
              qualifying t
              /\ (forall u, qualifying u ->
                    (improvementOver control u primaryMetric
                       <=? improvementOver control t primaryMetric) = true)
              /\ winnerVariantId decision = Some (variantId t)
              /\ improvement decision
                 = Some (improvementOver control t primaryMetric)
              /\ confidence decision
                 = 1 - pValue (testSignificance exp_approx control t
                                                primaryMetric confidenceLevel)))
  /\ (forall c t,
        within_ulp (exp_approx (-19.011406844106478)) 5.5392493369888428e-09 ->
        isControl c = true -> clicks c = 5000 -> conversions c = 500 ->
        sampleSize c = 5000 ->
        isControl t = false -> clicks t = 5000 -> conversions t = 700 ->
        sampleSize t = 5000 ->
        let decision := determineWinner exp_approx [c; t] Cvr 0.95 100 in
        status decision = winner
        /\ winnerVariantId decision = Some (variantId t)
        /\ exists i, improvement decision = Some i /\ (0 <? i) = true).
Proof.
  split; [|split].
  - intros control treatment []; reflexivity.
  - intros variants primaryMetric confidenceLevel minSampleSize control
           Hlen Hfind Htotal. cbv zeta.
    rewrite (determineWinner_passed _ _ _ _ _ _ Hlen Hfind Htotal).
    assert (Hiff :
      status (selectWinner exp_approx control (treatmentsOf variants)
                           primaryMetric confidenceLevel) = winner
      <-> exists t, In t variants /\ isControl t = false
            /\ qualifies exp_approx control primaryMetric confidenceLevel t = true).
    { split.
      - intros Hst. apply selectWinner_winner_inv in Hst.
        destruct Hst as (t & Hin & Hq). apply treatmentsOf_In in Hin.
        exists t. tauto.
      - intros (t & Hin & Hctl & Hq).
        destruct (selectWinner_winner exp_approx control primaryMetric
                    confidenceLevel (treatmentsOf variants))
          as (t' & _ & _ & _ & ->).
        + exists t. split; [apply treatmentsOf_In; tauto | exact Hq].
        + reflexivity. }
    split; [exact Hiff|].
    intros Hst. apply Hiff in Hst. destruct Hst as (t0 & Hin0 & Hctl0 & Hq0).
    destruct (selectWinner_winner exp_approx control primaryMetric
                confidenceLevel (treatmentsOf variants))
      as (t & Hin & Hq & Hmax & ->).
    { exists t0. split; [apply treatmentsOf_In; tauto | exact Hq0]. }
    apply treatmentsOf_In in Hin. exists t. repeat split; try tauto.
    intros u (Hu & Hctl & Hqu).
    assert (Hlt : (improvementOver control t primaryMetric
                     <? improvementOver control u primaryMetric) = false)
      by (apply Hmax; [apply treatmentsOf_In; tauto | exact Hqu]).
    unfold qualifies in Hq, Hqu.
    apply andb_true_iff in Hq. apply andb_true_iff in Hqu.
    apply FloatFacts.ltb_false_leb; tauto.
  - intros c t Hexp.
    destruct c as [cid cname cctl css cconv cclk cimp cspend crev cmet].
    destruct t as [tid tname tctl tss tconv tclk timp tspend trev tmet].
    simpl. intros -> -> -> -> -> -> -> ->.
    vm_compute.
    destruct Hexp as [-> | [-> | ->]]; vm_compute; repeat split;
      eexists; split; reflexivity.
Qed.

Lemma determineWinner_winner_witness :
  let control := createVariant "control" "Control" true 500 5000 in
  let treatment := createVariant "treatment" "Treatment" false 700 5000 in
  let decision := determineWinner refExp [control; treatment] Cvr 0.95 100 in
  (status decision = winner
   /\ winnerVariantId decision = Some "treatment"%string
   /\ exists i, improvement decision = Some i /\ (0 <? i) = true)
  /\ (exists t, In t [control; treatment] /\ isControl t = false
        /\ qualifies refExp control Cvr 0.95 t = true).
Proof.
  cbv zeta.
  destruct (determineWinner_winner refExp) as (_ & Hgeneral & Hscenario).
  assert (Hwin :
    let decision :=
      determineWinner refExp
        [createVariant "control" "Control" true 500 5000;
         createVariant "treatment" "Treatment" false 700 5000] Cvr 0.95 100 in
    status decision = winner
    /\ winnerVariantId decision = Some "treatment"%string
    /\ exists i, improvement decision = Some i /\ (0 <? i) = true).
  { apply Hscenario; try reflexivity. right. left. reflexivity. }
  split; [exact Hwin|].
  destruct (Hgeneral
              [createVariant "control" "Control" true 500 5000;
               createVariant "treatment" "Treatment" false 700 5000]
              Cvr 0.95 100 (createVariant "control" "Control" true 500 5000))
    as [Hiff _].
  - simpl. lia.
  - reflexivity.
  - reflexivity.
  - apply Hiff. exact (proj1 Hwin).
Defined.

(** C3.  Past the guards and with no qualifying treatment, [determineWinner]
    returns [loser], naming the control, exactly when the control is
    significantly better than some treatment (strictly smaller metric for
    [cpa] and [cpc], strictly larger otherwise), with the confidence
    [1 - pValue] of the first such comparison; in every remaining case it
    returns [tie] with confidence 0.5 and the reason that no statistically
    significant difference was found.  In the scenario of 500 against 510
    conversions on 5000 clicks each the result is a tie. *)
Theorem determineWinner_loser_or_tie (exp_approx : float -> float) :
  (forall control treatment primaryMetric,
     controlBetter control treatment primaryMetric
     = match primaryMetric with
       | Cpa | Cpc =>
           getMetricValue control primaryMetric
             <? getMetricValue treatment primaryMetric
       | _ =>
           getMetricValue treatment primaryMetric
             <? getMetricValue control primaryMetric
       end)
  /\ (forall variants primaryMetric confidenceLevel minSampleSize control,
        (2 <= List.length variants)%nat ->
        find isControl variants = Some control ->
        (totalSampleSizeOf variants <? minSampleSize) = false ->
        (forall t, In t variants -> isControl t = false ->
           qualifies exp_approx control primaryMetric confidenceLevel t = false) ->
        let decision :=
          determineWinner exp_approx variants primaryMetric confidenceLevel
                          minSampleSize in
        let losing t :=
          In t variants /\ isControl t = false
          /\ beaten exp_approx control primaryMetric confidenceLevel t = true in
        (status decision = loser <-> exists t, losing t)
        /\ ((exists t, losing t) ->
            exists t,
              losing t
              /\ decision
                 = loserAt exp_approx control primaryMetric confidenceLevel t)
        /\ (~ (exists t, losing t) -> decision = tieDecision))
  /\ (forall c t,
        within_ulp (exp_approx (-0.055067292231106034)) 0.94642145899907926 ->
        isControl c = true -> clicks c = 5000 -> conversions c = 500 ->
        sampleSize c = 5000 ->
        isControl t = false -> clicks t = 5000 -> conversions t = 510 ->
        sampleSize t = 5000 ->
        determineWinner exp_approx [c; t] Cvr 0.95 100 = tieDecision).
Proof.
  split; [|split].
  - intros control treatment []; reflexivity.
  - intros variants primaryMetric confidenceLevel minSampleSize control
           Hlen Hfind Htotal Hnone. cbv zeta.
    rewrite (determineWinner_passed _ _ _ _ _ _ Hlen Hfind Htotal).
    rewrite selectWinner_no_winner
      by (intros t Ht; apply treatmentsOf_In in Ht; now apply Hnone).
    assert (Hsome :
      (exists t, In t variants /\ isControl t = false
         /\ beaten exp_approx control primaryMetric confidenceLevel t = true) ->
      exists t,
        (In t variants /\ isControl t = false
         /\ beaten exp_approx control primaryMetric confidenceLevel t = true)
        /\ controlWins exp_approx control primaryMetric confidenceLevel
             (treatmentsOf variants)
           = Some (loserAt exp_approx control primaryMetric confidenceLevel t)).
    { intros (t0 & Hin0 & Hctl0 & Hb0).
      destruct (controlWins_some exp_approx control primaryMetric confidenceLevel
                  (treatmentsOf variants))
        as (before & t & after & Heq & _ & Hb & Hcw).
      { exists t0. split; [apply treatmentsOf_In; tauto | exact Hb0]. }
      assert (Hin : In t (treatmentsOf variants))
        by (rewrite Heq; apply in_or_app; right; now left).
      apply treatmentsOf_In in Hin. exists t. tauto. }
    assert (Hnot :
      ~ (exists t, In t variants /\ isControl t = false
           /\ beaten exp_approx control primaryMetric confidenceLevel t = true) ->
      controlWins exp_approx control primaryMetric confidenceLevel
        (treatmentsOf variants) = None).
    { intros Hno. apply controlWins_none. intros t Ht.
      apply treatmentsOf_In in Ht.
      destruct (beaten exp_approx control primaryMetric confidenceLevel t) eqn:Hb;
        [|reflexivity].
      exfalso. apply Hno. exists t. tauto. }
    split; [|split].
    + split.
      * intros Hst.
        destruct (controlWins exp_approx control primaryMetric confidenceLevel
                    (treatmentsOf variants)) as [d|] eqn:Hcw; [|discriminate].
        destruct (controlWins_some_inv exp_approx control primaryMetric
                    confidenceLevel _ _ Hcw) as (t & Hin & Hb).
        apply treatmentsOf_In in Hin. exists t. tauto.
      * intros Hex. destruct (Hsome Hex) as (t & _ & ->). reflexivity.
    + intros Hex. destruct (Hsome Hex) as (t & Ht & ->). now exists t.
    + intros Hno. now rewrite (Hnot Hno).
  - intros c t Hexp.
    destruct c as [cid cname cctl css cconv cclk cimp cspend crev cmet].
    destruct t as [tid tname tctl tss tconv tclk timp tspend trev tmet].
    simpl. intros -> -> -> -> -> -> -> ->.
    vm_compute.
    destruct Hexp as [-> | [-> | ->]]; vm_compute; reflexivity.
Qed.

Lemma determineWinner_loser_or_tie_witness :
  let control := createVariant "control" "Control" true 500 5000 in
  let treatment := createVariant "treatment" "Treatment" false 510 5000 in
  let strong := createVariant "control" "Control" true 700 5000 in
  let weak := createVariant "treatment" "Treatment" false 500 5000 in
  (determineWinner refExp [control; treatment] Cvr 0.95 100 = tieDecision
   /\ ~ (exists t, In t [control; treatment] /\ isControl t = false
           /\ beaten refExp control Cvr 0.95 t = true))
  /\ (status (determineWinner refExp [strong; weak] Cvr 0.95 100) = loser
      /\ winnerVariantId (determineWinner refExp [strong; weak] Cvr 0.95 100)
         = Some "control"%string).
Proof.
  cbv zeta.
  destruct (determineWinner_loser_or_tie refExp) as (_ & Hgeneral & Hscenario).
  split.
  - assert (Htie :
      determineWinner refExp
        [createVariant "control" "Control" true 500 5000;
         createVariant "treatment" "Treatment" false 510 5000] Cvr 0.95 100
      = tieDecision).
    { apply Hscenario; try reflexivity. right. left. reflexivity. }
    split; [exact Htie|].
    destruct (Hgeneral
                [createVariant "control" "Control" true 500 5000;
                 createVariant "treatment" "Treatment" false 510 5000]
                Cvr 0.95 100 (createVariant "control" "Control" true 500 5000))
      as [Hiff _].
    + simpl. lia.
    + reflexivity.
    + reflexivity.
    + intros t [<- | [<- | []]] Hctl; [discriminate | reflexivity].
    + intros Hex. apply Hiff in Hex. rewrite Htie in Hex. discriminate.
  - destruct (Hgeneral
                [createVariant "control" "Control" true 700 5000;
                 createVariant "treatment" "Treatment" false 500 5000]
                Cvr 0.95 100 (createVariant "control" "Control" true 700 5000))
      as (_ & Hloser & _).
    + simpl. lia.
    + reflexivity.
    + reflexivity.
    + intros t [<- | [<- | []]] Hctl; [discriminate | reflexivity].
    + destruct Hloser as (t & _ & ->).
      * exists (createVariant "treatment" "Treatment" false 500 5000).
        split; [right; now left | split; reflexivity].
      * split; reflexivity.
Defined.

(** C9.  With several variants flagged as control, [determineWinner] takes
    the first one in list order as the control, and the treatments are
    exactly the variants not flagged as control; so two variants that are
    both flagged, with enough samples, leave no treatment and give a tie with
    confidence 0.5. *)
Theorem determineWinner_first_control (exp_approx : float -> float) :
  (forall before c after primaryMetric confidenceLevel minSampleSize,
     (forall v, In v before -> isControl v = false) ->
     isControl c = true ->
     (2 <= List.length (before ++ c :: after))%nat ->
     (totalSampleSizeOf (before ++ c :: after) <? minSampleSize) = false ->
     determineWinner exp_approx (before ++ c :: after) primaryMetric
                     confidenceLevel minSampleSize
     = selectWinner exp_approx c (treatmentsOf (before ++ c :: after))
                    primaryMetric confidenceLevel)
  /\ (forall variants t,
        In t (treatmentsOf variants) <-> In t variants /\ isControl t = false)
  /\ (forall a b primaryMetric confidenceLevel minSampleSize,
        isControl a = true -> isControl b = true ->
        (minSampleSize <=? totalSampleSizeOf [a; b]) = true ->
        determineWinner exp_approx [a; b] primaryMetric confidenceLevel minSampleSize
        = tieDecision
        /\ confidence tieDecision = 0.5).
Proof.
  split; [|split].
  - intros before c after primaryMetric confidenceLevel minSampleSize
           Hbefore Hc Hlen Htotal.
    apply determineWinner_passed; try assumption.
    now apply find_first_control.
  - apply treatmentsOf_In.
  - intros a b primaryMetric confidenceLevel minSampleSize Ha Hb Hmeets.
    split; [|reflexivity].
    apply FloatFacts.leb_ltb_false in Hmeets.
    rewrite (determineWinner_passed exp_approx [a; b] _ _ _ a); try assumption.
    + unfold treatmentsOf. simpl. rewrite Ha, Hb. reflexivity.
    + simpl. lia.
    + simpl. now rewrite Ha.
Qed.

Lemma determineWinner_first_control_witness :
  let a := createVariant "a" "A" true 500 5000 in
  let b := createVariant "b" "B" true 700 5000 in
  determineWinner refExp [a; b] Cvr 0.95 100
  = selectWinner refExp a (treatmentsOf [a; b]) Cvr 0.95
  /\ determineWinner refExp [a; b] Cvr 0.95 100 = tieDecision
  /\ confidence tieDecision = 0.5.
Proof.
  cbv zeta.
  destruct (determineWinner_first_control refExp) as (Hfirst & _ & Htwo).
  split.
  - apply (Hfirst [] (createVariant "a" "A" true 500 5000)
                  [createVariant "b" "B" true 700 5000] Cvr 0.95 100).
    + intros v [].
    + reflexivity.
    + simpl. lia.
    + reflexivity.
  - apply Htwo; reflexivity.
Defined.

(** ** A control whose metric is zero *)

Lemma improvementOver_zero_control control t primaryMetric :
  getMetricValue control primaryMetric = 0 ->
  improvementOver control t primaryMetric
  = if isLowerBetter primaryMetric
    then (0 - getMetricValue t primaryMetric) / 0 * 100
    else (getMetricValue t primaryMetric - 0) / 0 * 100.
Proof.
  unfold improvementOver. cbv zeta. intros ->. reflexivity.
Qed.

(** On [cpc] a control without clicks has metric 0; a significant treatment
    with a positive cost per click then does not win: the control does. *)
Lemma zero_control_cpc_counterexample :
  let control := createVariant "control" "Control" true 0 0 in
  let treatment := createVariant "treatment" "Treatment" false 700 5000 in
  getMetricValue control Cpc = 0
  /\ getMetricValue treatment Cpc = 5
  /\ (totalSampleSizeOf [control; treatment] <? 100) = false
  /\ find isControl [control; treatment] = Some control
  /\ forall exp_approx,
       within_ulp (exp_approx (-406.97674418604652)) 1.7874987099859244e-177 ->
       isSignificant (testSignificance exp_approx control treatment Cpc 0.95) = true
       /\ improvementOver control treatment Cpc = neg_infinity
       /\ status (determineWinner exp_approx [control; treatment] Cpc 0.95 100) = loser
       /\ improvement (determineWinner exp_approx [control; treatment] Cpc 0.95 100)
          = None.
Proof.
  cbv zeta. do 4 (split; [reflexivity|]).
  intros exp_approx Hexp. vm_compute.
  destruct Hexp as [-> | [-> | ->]]; repeat split.
Qed.

(** The zero of the control must be the positive one, the zero the derivers
    return: against a revenue of [-0] a significant treatment with positive
    revenue has improvement [-Infinity] and the result is a tie. *)
Lemma negative_zero_control_revenue :
  let control :=
    mkVariantResult "control" "Control" true 5000 500 5000 500000 25000 (-0)
                    (mkVariantMetrics 0 0 0 0 0 0) in
  let treatment :=
    mkVariantResult "treatment" "Treatment" false 5000 700 5000 500000 25000 70000
                    (mkVariantMetrics 0 0 0 0 0 0) in
  (getMetricValue control Revenue =? 0) = true
  /\ improvementOver control treatment Revenue = neg_infinity
  /\ forall exp_approx,
       within_ulp (exp_approx (-19.011406844106478)) 5.5392493369888428e-09 ->
       isSignificant (testSignificance exp_approx control treatment Revenue 0.95) = true
       /\ determineWinner exp_approx [control; treatment] Revenue 0.95 100
          = tieDecision.
Proof.
  cbv zeta. do 2 (split; [reflexivity|]).
  intros exp_approx Hexp. vm_compute.
  destruct Hexp as [-> | [-> | ->]]; repeat split.
Qed.

(** C10, as the code has it.  Past the guards, with a control whose primary
    metric is (positive) zero and a treatment of positive metric whose
    comparison is significant: for a higher-is-better metric the result is
    [winner] with improvement [+Infinity] and the confidence [1 - pValue] of
    a significant treatment; for the lower-is-better metrics [cpa] and
    [cpc] the improvement of such a treatment is [-Infinity] and it does
    not qualify as a winner. *)
Theorem determineWinner_zero_control (exp_approx : float -> float)
    (variants : list VariantResult) (primaryMetric : MetricType)
    (confidenceLevel minSampleSize : float) (control : VariantResult) :
  (2 <= List.length variants)%nat ->
  find isControl variants = Some control ->
  (totalSampleSizeOf variants <? minSampleSize) = false ->
  getMetricValue control primaryMetric = 0 ->
  (exists t, In t variants /\ isControl t = false
     /\ (0 <? getMetricValue t primaryMetric) = true
     /\ isSignificant (testSignificance exp_approx control t primaryMetric
                                        confidenceLevel) = true) ->
  let decision :=
    determineWinner exp_approx variants primaryMetric confidenceLevel minSampleSize in
  (isLowerBetter primaryMetric = false ->
     status decision = winner
     /\ improvement decision = Some infinity
     /\ exists t,
          In t variants /\ isControl t = false
          /\ isSignificant (testSignificance exp_approx control t primaryMetric
                                             confidenceLevel) = true
          /\ improvementOver control t primaryMetric = infinity
          /\ winnerVariantId decision = Some (variantId t)
          /\ confidence decision
             = 1 - pValue (testSignificance exp_approx control t primaryMetric
                                            confidenceLevel))
  /\ (isLowerBetter primaryMetric = true ->
      forall t,
        (0 <? getMetricValue t primaryMetric) = true ->
        improvementOver control t primaryMetric = neg_infinity
        /\ qualifies exp_approx control primaryMetric confidenceLevel t = false).
Proof.
  intros Hlen Hfind Htotal Hzero (t0 & Hin0 & Hctl0 & Hpos0 & Hsig0). cbv zeta.
  split.
  - intros Hdir.
    rewrite (determineWinner_passed _ _ _ _ _ _ Hlen Hfind Htotal).
    destruct (selectWinner_winner exp_approx control primaryMetric
                confidenceLevel (treatmentsOf variants))
      as (t & Hin & Hq & _ & ->).
    { exists t0. split; [apply treatmentsOf_In; tauto|].
      unfold qualifies. rewrite Hsig0. simpl.
      rewrite (improvementOver_zero_control _ _ _ Hzero), Hdir.
      now rewrite (FloatFacts.over_zero_pos _ Hpos0). }
    apply treatmentsOf_In in Hin.
    unfold qualifies in Hq. apply andb_true_iff in Hq. destruct Hq as [Hsig Himp].
    assert (Hinf : improvementOver control t primaryMetric = infinity).
    { rewrite (improvementOver_zero_control _ _ _ Hzero), Hdir in Himp |- *.
      now apply FloatFacts.over_zero_sign. }
    simpl. rewrite Hinf. repeat split.
    exists t. repeat split; tauto.
  - intros Hdir t Hpos.
    assert (Hinf : improvementOver control t primaryMetric = neg_infinity).
    { rewrite (improvementOver_zero_control _ _ _ Hzero), Hdir.
      now apply FloatFacts.under_zero_pos. }
    split; [exact Hinf|].
    unfold qualifies. rewrite Hinf. apply andb_false_r.
Qed.

Lemma determineWinner_zero_control_witness :
  let control := createVariant "control" "Control" true 0 0 in
  let treatment := createVariant "treatment" "Treatment" false 700 5000 in
  let decision := determineWinner refExp [control; treatment] Cvr 0.95 100 in
  status decision = winner
  /\ improvement decision = Some infinity
  /\ winnerVariantId decision = Some "treatment"%string.
Proof.
  cbv zeta.
  destruct (determineWinner_zero_control refExp
              [createVariant "control" "Control" true 0 0;
               createVariant "treatment" "Treatment" false 700 5000]
              Cvr 0.95 100 (createVariant "control" "Control" true 0 0))
    as [Hhigher _].
  - simpl. apply le_n.
  - reflexivity.
  - reflexivity.
  - reflexivity.
  - exists (createVariant "treatment" "Treatment" false 700 5000).
    repeat split; try reflexivity. right. now left.
  - destruct (Hhigher eq_refl) as (Hst & Himp & _).
    split; [exact Hst | split; [exact Himp | reflexivity]].
Defined.

(** ** Metrics and significance *)

(** C4.  The six derivers are total functions with their zero-denominator
    sentinels: 0 for [cvr], [ctr], [roas], [cpc] and [cpm], [+Infinity] for
    [cpa]; and [calculateVariantMetrics] assembles exactly these six
    values. *)
Theorem metrics_sentinels :
  (forall conversions clicks,
     calculateCVR conversions clicks
     = if clicks =? 0 then 0 else conversions / clicks * 100)
  /\ (forall clicks impressions,
        calculateCTR clicks impressions
        = if impressions =? 0 then 0 else clicks / impressions * 100)
  /\ (forall spend conversions,
        calculateCPA spend conversions
        = if conversions =? 0 then infinity else spend / conversions)
  /\ (forall revenue spend,
        calculateROAS revenue spend
        = if spend =? 0 then 0 else revenue / spend)
  /\ (forall spend clicks,
        calculateCPC spend clicks
        = if clicks =? 0 then 0 else spend / clicks)
  /\ (forall spend impressions,
        calculateCPM spend impressions
        = if impressions =? 0 then 0 else spend / impressions * 1000)
  /\ (forall x,
        calculateCVR x 0 = 0 /\ calculateCTR x 0 = 0
        /\ calculateCPA x 0 = infinity /\ calculateROAS x 0 = 0
        /\ calculateCPC x 0 = 0 /\ calculateCPM x 0 = 0)
  /\ (calculateCVR 0 0 = 0 /\ calculateCPA 1000 0 = infinity
      /\ calculateROAS 1000 0 = 0)
  /\ (forall result,
        calculateVariantMetrics result
        = {| cvr := calculateCVR (conversions result) (clicks result);
             ctr := calculateCTR (clicks result) (impressions result);
             cpa := calculateCPA (spend result) (conversions result);
             roas := calculateROAS (revenue result) (spend result);
             cpc := calculateCPC (spend result) (clicks result);
             cpm := calculateCPM (spend result) (impressions result) |}).
Proof.
  repeat split; reflexivity.
Qed.

(** C6.  The minimum detectable effect [testSignificance] reports is
    [1.96 * pooledSE * 100] with [pooledSE = sqrt (seControl^2 + seTreatment^2)]:
    it uses the 95% critical value and does not depend on the caller's
    confidence level, while significance is [pValue < 1 - confidenceLevel]. *)
Theorem testSignificance_mde (exp_approx : float -> float)
    (control treatment : VariantResult) (metric : MetricType)
    (confidenceLevel : float) :
  let result := testSignificance exp_approx control treatment metric confidenceLevel in
  let seControl :=
    calculateStandardError (rateOf metric control) (denominatorOf metric control) in
  let seTreatment :=
    calculateStandardError (rateOf metric treatment) (denominatorOf metric treatment) in
  let pooledSE := sqrt (seControl * seControl + seTreatment * seTreatment) in
  minimumDetectableEffect result = 1.96 * pooledSE * 100
  /\ standardError result = pooledSE
  /\ (forall confidenceLevel',
        minimumDetectableEffect
          (testSignificance exp_approx control treatment metric confidenceLevel')
        = minimumDetectableEffect result)
  /\ pValue result
     = calculatePValue exp_approx
         (calculateZScore (rateOf metric treatment) (rateOf metric control)
                          seTreatment seControl)
  /\ isSignificant result = (pValue result <? 1 - confidenceLevel).
Proof.
  destruct metric; repeat split.
Qed.

(** C7.  [calculatePValue z] is [2 * d * t * poly t] with
    [t = 1 / (1 + 0.2316419 |z|)] and [d = 0.3989423 * exp (-|z| |z| / 2)],
    where [|z| |z|] is [z^2]; it depends on [|z|] only.  It is within 0.1 of
    1 at [z = 0], for every exponential, and within 0.01 of 0.05 at
    [z = 1.96], for every exponential accurate to one unit in the last place
    at the argument reached. *)
Theorem calculatePValue_anchors (exp_approx : float -> float) :
  (forall z,
     let t := 1 / (1 + 0.2316419 * abs z) in
     let d := 0.3989423 * Math_exp exp_approx (- abs z * abs z / 2) in
     calculatePValue exp_approx z
     = 2 * (d * t * (0.3193815 + t * (-0.3565638 + t * (1.781478
                       + t * (-1.821256 + t * 1.330274))))))
  /\ (forall z, abs z * abs z = z * z)
  /\ (forall z, calculatePValue exp_approx (- z) = calculatePValue exp_approx z)
  /\ calculatePValue exp_approx 0 = 0.99999970019901996
  /\ (abs (calculatePValue exp_approx 0 - 1) <=? 0.1) = true
  /\ (within_ulp (exp_approx (-1.9207999999999998)) 0.1464897234623658 ->
      (abs (calculatePValue exp_approx 1.96 - 0.05) <=? 0.01) = true).
Proof.
  split; [|split; [|split; [|split; [|split]]]].
  - reflexivity.
  - apply FloatFacts.abs_square.
  - intros z. unfold calculatePValue. now rewrite FloatFacts.abs_opp.
  - reflexivity.
  - reflexivity.
  - intros Hexp. vm_compute.
    destruct Hexp as [-> | [-> | ->]]; reflexivity.
Qed.

Lemma calculatePValue_anchors_witness :
  (abs (calculatePValue refExp 1.96 - 0.05) <=? 0.01) = true.
Proof.
  refine (proj2 (proj2 (proj2 (proj2 (proj2 (calculatePValue_anchors refExp))))) _).
  right. left. reflexivity.
Defined.

(** ** The sample-size planner *)

Lemma Math_ceil_examples :
  Math_ceil 3837.2 = 3838 /\ Math_ceil 3838 = 3838
  /\ Math_ceil (-395.92) = -395 /\ Math_ceil (-0.5) = -0
  /\ Math_ceil 0.5 = 1 /\ Math_ceil 0 = 0
  /\ Math_ceil infinity = infinity /\ Math_ceil nan = nan
  /\ Math_ceil 4503599627370495.5 = 4503599627370496
  /\ Math_ceil 1e300 = 1e300.
Proof. repeat split; reflexivity. Qed.

Lemma calculateRequiredSampleSize_example :
  calculateRequiredSampleSize 10 2 0.8 0.95 = 3838.
Proof. reflexivity. Qed.













(** ** The learning generator and the evaluation entry point *)

Lemma insert_by_length {A : Type} (compareFn : A -> A -> float) x l :
  List.length (insert_by compareFn x l) = S (List.length l).
Proof.
  induction l as [|y rest IH]; simpl; [reflexivity|].
  destruct (0 <? compareFn x y); simpl; [now rewrite IH | reflexivity].
Qed.

Lemma sort_by_length {A : Type} (compareFn : A -> A -> float) l :
  List.length (sort_by compareFn l) = List.length l.
Proof.
  induction l as [|x rest IH]; simpl; [reflexivity|].
  unfold sort_by in *. simpl. now rewrite insert_by_length, IH.
Qed.

Lemma nth_error_in_range {A : Type} (l : list A) i :
  (i < List.length l)%nat -> exists x, nth_error l i = Some x.
Proof.
  intros Hi. destruct (nth_error l i) as [x|] eqn:Hnth; [now exists x|].
  apply nth_error_None in Hnth. lia.
Qed.

Section Learnings.

Variable oracle : nat -> string.

Lemma winnerLearning_returns variants decision learnings n :
  exists learnings' n',
    winnerLearning oracle variants decision learnings n = Returned learnings' n'.
Proof.
  unfold winnerLearning.
  destruct (status decision), (winnerVariantId decision) as [winnerId|];
    try (eexists; eexists; reflexivity).
  destruct (winnerId =? "")%string; [eexists; eexists; reflexivity|].
  destruct (find _ variants); eexists; eexists; reflexivity.
Qed.

Lemma ctrLearning_returns variants learnings n :
  variants <> [] ->
  exists learnings' n', ctrLearning oracle variants learnings n = Returned learnings' n'.
Proof.
  intros Hne. unfold ctrLearning. cbv zeta.
  set (sorted := sort_by _ variants).
  assert (Hlen : (0 < List.length sorted)%nat).
  { unfold sorted. rewrite sort_by_length. destruct variants; [congruence | simpl; lia]. }
  destruct (nth_error_in_range sorted 0 Hlen) as (best & ->).
  destruct (nth_error_in_range sorted (List.length sorted - 1)) as (worst & ->); [lia|].
  unfold bind, defined, ret.
  destruct (0.5 <? _); eexists; eexists; reflexivity.
Qed.

Lemma cpaLearning_returns variants learnings n :
  variants <> [] ->
  exists learnings' n', cpaLearning oracle variants learnings n = Returned learnings' n'.
Proof.
  intros Hne. unfold cpaLearning. cbv zeta.
  set (sorted := sort_by _ variants).
  assert (Hlen : (0 < List.length sorted)%nat).
  { unfold sorted. rewrite sort_by_length. destruct variants; [congruence | simpl; lia]. }
  destruct (nth_error_in_range sorted 0 Hlen) as (best & ->).
  destruct (last _ None) as [worst|]; [|eexists; eexists; reflexivity].
  unfold bind, defined, ret.
  destruct (30 <? _); eexists; eexists; reflexivity.
Qed.

(** On a list with at least one variant the learning generator returns. *)
Lemma generateLearnings_returns variants decision n :
  variants <> [] ->
  exists learnings n',
    generateLearnings oracle variants decision n = Returned learnings n'.
Proof.
  intros Hne. unfold generateLearnings, bind.
  destruct (winnerLearning_returns variants decision [] n) as (l1 & n1 & ->).
  destruct (ctrLearning_returns variants l1 n1 Hne) as (l2 & n2 & ->).
  apply cpaLearning_returns, Hne.
Qed.

(** On the empty list it raises: the best click-through rate is read from
    the first element of an empty array. *)
Lemma generateLearnings_empty decision n :
  generateLearnings oracle [] decision n = Thrown TypeError.
Proof.
  unfold generateLearnings, bind.
  destruct (winnerLearning_returns [] decision [] n) as (l1 & n1 & ->).
  reflexivity.
Qed.

End Learnings.

(** C5, at the input where the code departs from it.  [determineWinner]
    answers [insufficient_data] on the empty list and on a single variant,
    and the learning generator returns on every non-empty list; but on the
    empty list [generateLearnings] raises a TypeError, and so does
    [createTestResult]. *)
Theorem createTestResult_empty_raises (exp_approx : float -> float)
    (oracle : nat -> string) :
  (forall primaryMetric confidenceLevel minSampleSize,
     status (determineWinner exp_approx [] primaryMetric confidenceLevel minSampleSize)
     = insufficient_data)
  /\ (forall v primaryMetric confidenceLevel minSampleSize,
        status (determineWinner exp_approx [v] primaryMetric confidenceLevel
                                minSampleSize)
        = insufficient_data)
  /\ (forall decision n, generateLearnings oracle [] decision n = Thrown TypeError)
  /\ (forall runId testType startDate endDate primaryMetric n,
        createTestResult exp_approx oracle runId testType startDate endDate
                         primaryMetric [] n
        = Thrown TypeError).
Proof.
  split; [|split; [|split]].
  - reflexivity.
  - reflexivity.
  - apply generateLearnings_empty.
  - intros. unfold createTestResult. cbv zeta. unfold bind. simpl map.
    now rewrite generateLearnings_empty.
Qed.

(** On a non-empty list the evaluation returns a result whose decision is
    that of [determineWinner] at the default confidence level and minimum. *)
Lemma createTestResult_returns exp_approx oracle runId testType startDate endDate
    primaryMetric variants n :
  variants <> [] ->
  exists result n',
    createTestResult exp_approx oracle runId testType startDate endDate
                     primaryMetric variants n
    = Returned result n'.
Proof.
  intros Hne. unfold createTestResult. cbv zeta. unfold bind.
  match goal with
  | |- context [generateLearnings oracle ?vs ?d n] =>
      destruct (generateLearnings_returns oracle vs d n) as (ls & n1 & ->)
  end.
  - destruct variants; [congruence | discriminate].
  - eexists; eexists; reflexivity.
Qed.
